(** * BK Integration Settings: the form controller and its stripped-down variant

    A shallow embedding of the two client scripts registered on the
    "BK Integration Settings" form:

    - [bk_integration_settings.js] (module [Main]): derives five callback URLs
      from [erp_base_url] and renders the outcome of the last connection test;
    - the variant without status rendering (module [Variant]), whose guard
      goes through the host's [cint].

    The record [frm.doc] is a JavaScript object, modelled as a finite map from
    field names to JavaScript values.  Host calls ([frm.set_value],
    [frappe.show_alert], [frm.set_intro]) are modelled by their effect on the
    record or as an ordered list of calls. *)

From Stdlib Require Import ZArith Ascii String List Bool Lia.
From Stdlib Require Import Numbers.DecimalString.
From stdpp Require Import base gmap strings.

Local Open Scope string_scope.

(** ** JavaScript values and strings *)

Module Js.

(** The values a field of the record holds.  Numbers are the integer-valued
    ones (a Check field stores 0 or 1); strings are sequences of bytes. *)
Inductive value : Type :=
  | Undefined
  | Null
  | Bool (b : bool)
  | Num (n : Z)
  | Str (s : string).

#[global] Instance value_eq_dec : EqDecision value.
Proof. solve_decision. Defined.

(** ToBoolean: [undefined], [null], [false], [0] and the empty string are
    falsy, everything else is truthy. *)
Definition truthy (v : value) : bool :=
  match v with
  | Undefined | Null => false
  | Bool b => b
  | Num n => negb (n =? 0)%Z
  | Str s => negb (String.eqb s "")
  end.

(** [a || b] *)
Definition or (a b : value) : value := if truthy a then a else b.

(** Outcome of running a handler: it returns, or a [TypeError] is thrown
    (a string method called on a value that is not a string). *)
Inductive completion (A : Type) : Type :=
  | Normal (a : A)
  | TypeError.
Arguments Normal {A} a.
Arguments TypeError {A}.

Definition bind {A B} (c : completion A) (k : A -> completion B) : completion B :=
  match c with
  | Normal a => k a
  | TypeError => TypeError
  end.

Definition map {A B} (f : A -> B) (c : completion A) : completion B :=
  bind c (fun a => Normal (f a)).

Notation "'let*' x := c 'in' k" := (bind c (fun x => k))
  (at level 10, x name, c at level 100, k at level 200).

(** The receiver of a [String.prototype] method. *)
Definition as_string (v : value) : completion string :=
  match v with
  | Str s => Normal s
  | _ => TypeError
  end.

Definition is_slash (c : ascii) : bool := Ascii.eqb c "/".

(** [/^\/*$/]: only slashes up to the end of the input. *)
Fixpoint all_slashes (s : string) : bool :=
  match s with
  | EmptyString => true
  | String c s' => is_slash c && all_slashes s'
  end.

(** [s.replace(/\/+$/, "")]: the search tries each start position from the
    left; [\/+$] matches at a position exactly when a slash stands there and
    only slashes follow up to the end.  The first match is replaced by the
    empty string, and nothing follows it. *)
Fixpoint replace_trailing_slashes (s : string) : string :=
  match s with
  | EmptyString => EmptyString
  | String c s' =>
      if is_slash c && all_slashes s' then EmptyString
      else String c (replace_trailing_slashes s')
  end.

(** [c.toUpperCase()] on one byte: the letters a..z move to A..Z. *)
Definition upper_ascii (c : ascii) : ascii :=
  let n := N_of_ascii c in
  if ((97 <=? n) && (n <=? 122))%N then ascii_of_N (n - 32) else c.

(** [s.toUpperCase()] *)
Fixpoint toUpperCase (s : string) : string :=
  match s with
  | EmptyString => EmptyString
  | String c s' => String (upper_ascii c) (toUpperCase s')
  end.

(** [String(v)]; a number is printed in plain decimal, which is its text
    in JavaScript below 1e21. *)
Definition to_string (v : value) : string :=
  match v with
  | Undefined => "undefined"
  | Null => "null"
  | Bool true => "true"
  | Bool false => "false"
  | Num n => NilZero.string_of_int (Z.to_int n)
  | Str s => s
  end.

(** Number of occurrences of the byte [c] in [s]. *)
Fixpoint occurrences (c : ascii) (s : string) : nat :=
  match s with
  | EmptyString => 0
  | String c' s' => (if Ascii.eqb c c' then 1 else 0) + occurrences c s'
  end.

(** The double quote, as a one-byte string. *)
Definition dquote : string := String "034"%char EmptyString.

End Js.

Import Js.

(** ** The record and the host calls *)

(** [frm.doc.k]: a field that is not there reads as [undefined]. *)
Definition get (doc : gmap string value) (k : string) : value :=
  default Undefined (doc !! k).

(** [frm.set_value(k, v)] *)
Definition set_value (k : string) (v : string) (doc : gmap string value)
  : gmap string value :=
  <[k := Str v]> doc.

(** The calls a handler makes on the host's screen, in the order made. *)
Inductive host_call : Type :=
  | show_alert (message indicator : string)
  | set_intro (html color : string).

(** What the screen shows as far as the handlers reach it: the transient
    alerts fired so far and the intro banner of the form, if one is set. *)
Record screen : Type := Screen {
  alerts : list (string * string);
  intro : option (string * string)
}.

Definition perform (ui : screen) (c : host_call) : screen :=
  match c with
  | show_alert m i => Screen (alerts ui ++ [(m, i)])%list (intro ui)
  | set_intro h col => Screen (alerts ui) (Some (h, col))
  end.

Definition perform_all (ui : screen) (cs : list host_call) : screen :=
  fold_left perform cs ui.

(** ** bk_integration_settings.js *)

Module Main.

Definition generate_urls (origin : string) (doc : gmap string value)
  : completion (gmap string value) :=
  if negb (truthy (get doc "enable_integration")) then Normal doc
  else
    let* base := Js.map replace_trailing_slashes
                   (as_string (Js.or (Js.or (get doc "erp_base_url")
                                            (Str origin))
                                     (Str ""))) in
    let doc := set_value "auth_url"
                 (base +:+ "/api/method/bk_integration.api.authenticate") doc in
    let doc := set_value "validation_url"
                 (base +:+ "/api/method/bk_integration.api.validate_customer") doc in
    let doc := set_value "payment_notification_url"
                 (base +:+ "/api/method/bk_integration.api.payment_notification") doc in
    let doc := set_value "payment_callback_url"
                 (base +:+ "/api/method/bk_integration.api.payment_callback") doc in
    let doc := set_value "payment_reversal_url"
                 (base +:+ "/api/method/bk_integration.api.payment_reversal") doc in
    Normal doc.

Definition label_success : string :=
  "<span style=" +:+ dquote +:+ "color:#178a2f;font-weight:600;" +:+ dquote
  +:+ ">SUCCESS</span>".

Definition label_failed : string :=
  "<span style=" +:+ dquote +:+ "color:#c0392b;font-weight:600;" +:+ dquote
  +:+ ">FAILED</span>".

Section WithEscapeHtml.

(** The host's [frappe.utils.escape_html]. *)
Variable escape_html : value -> string.

Definition render_test_status (doc : gmap string value)
  : completion (list host_call) :=
  let* s := Js.map toUpperCase
              (as_string (Js.or (get doc "last_test_status") (Str ""))) in
  let msg := Js.or (get doc "last_test_message") (Str "") in
  let on := Js.or (get doc "last_test_on") (Str "") in
  if negb (truthy (Str s)) then Normal []
  else
    let fired :=
      if String.eqb s "SUCCESS" then [show_alert "BK Connection: SUCCESS" "green"]
      else if String.eqb s "FAILED" then [show_alert "BK Connection: FAILED" "red"]
      else [] in
    let label := if String.eqb s "SUCCESS" then label_success else label_failed in
    Normal (fired ++
            [set_intro
               ("<div>BK Connection Test: " +:+ label +:+ "<br>"
                +:+ escape_html msg +:+ "<br><small>Last tested: "
                +:+ escape_html on +:+ "</small></div>")
               (if String.eqb s "SUCCESS" then "green" else "red")])%list.

End WithEscapeHtml.

Section WithToUpperCase.

(** [String.prototype.toUpperCase] maps the letters of every script, beyond
    the bytes this file can tell apart; [Js.toUpperCase] is its part on the
    letters a..z.  Here the handler takes the built-in as it takes
    [escape_html], so that what is proved of it holds for every status. *)
Variable toUpperCase : string -> string.
Variable escape_html : value -> string.

Definition render_test_status_with (doc : gmap string value)
  : completion (list host_call) :=
  let* s := Js.map toUpperCase
              (as_string (Js.or (get doc "last_test_status") (Str ""))) in
  let msg := Js.or (get doc "last_test_message") (Str "") in
  let on := Js.or (get doc "last_test_on") (Str "") in
  if negb (truthy (Str s)) then Normal []
  else
    let fired :=
      if String.eqb s "SUCCESS" then [show_alert "BK Connection: SUCCESS" "green"]
      else if String.eqb s "FAILED" then [show_alert "BK Connection: FAILED" "red"]
      else [] in
    let label := if String.eqb s "SUCCESS" then label_success else label_failed in
    Normal (fired ++
            [set_intro
               ("<div>BK Connection Test: " +:+ label +:+ "<br>"
                +:+ escape_html msg +:+ "<br><small>Last tested: "
                +:+ escape_html on +:+ "</small></div>")
               (if String.eqb s "SUCCESS" then "green" else "red")])%list.

End WithToUpperCase.

End Main.

(** ** The variant without status rendering *)

Module Variant.

Section WithCint.

(** The host's integer coercion [cint], a global of the framework. *)
Variable cint : value -> Z.

Definition generate_urls (origin : string) (doc : gmap string value)
  : completion (gmap string value) :=
  let enabled := cint (Js.or (get doc "enable_integration") (Num 0)) in
  if (enabled =? 0)%Z then Normal doc
  else
    let* base := Js.map replace_trailing_slashes
                   (as_string (Js.or (Js.or (get doc "erp_base_url")
                                            (Str origin))
                                     (Str ""))) in
    let doc := set_value "auth_url"
                 (base +:+ "/api/method/bk_integration.api.authenticate") doc in
    let doc := set_value "validation_url"
                 (base +:+ "/api/method/bk_integration.api.validate_customer") doc in
    let doc := set_value "payment_notification_url"
                 (base +:+ "/api/method/bk_integration.api.payment_notification") doc in
    let doc := set_value "payment_callback_url"
                 (base +:+ "/api/method/bk_integration.api.payment_callback") doc in
    let doc := set_value "payment_reversal_url"
                 (base +:+ "/api/method/bk_integration.api.payment_reversal") doc in
    Normal doc.

End WithCint.

End Variant.

(** ** Instances of the host functions

    [cint] and [escape_html] belong to the framework; the handlers above take
    them as parameters.  The instances below are what the theorems are run
    on. *)

Module Host.

(** [cint] on what a Check field holds: a boolean counts as 1 or 0 and an
    integer is itself.  Here every other value is sent to 0, which is what
    the framework's [cint] gives for "0" and for text that is not a number;
    its reading of other numeric strings is not reproduced. *)
Definition cint (v : value) : Z :=
  match v with
  | Bool true => 1
  | Bool false => 0
  | Num n => n
  | _ => 0
  end.

Definition escape_char (c : ascii) : string :=
  if Ascii.eqb c "&" then "&amp;"
  else if Ascii.eqb c "<" then "&lt;"
  else if Ascii.eqb c ">" then "&gt;"
  else if Ascii.eqb c "034" then "&quot;"
  else if Ascii.eqb c "'" then "&#39;"
  else if Ascii.eqb c "`" then "&#x60;"
  else if Ascii.eqb c "=" then "&#x3D;"
  else String c EmptyString.

Fixpoint escape_chars (s : string) : string :=
  match s with
  | EmptyString => EmptyString
  | String c s' => escape_char c +:+ escape_chars s'
  end.

(** [escape_html]: nothing for a falsy argument, otherwise the text of the
    argument with the ampersand, the angle brackets, both quotes, the
    backquote and the equals sign each replaced by its entity. *)
Definition escape_html (txt : value) : string :=
  if negb (truthy txt) then "" else escape_chars (to_string txt).

End Host.

(** ** The spec's trailing-slash trimming *)

Fixpoint drop_slashes (l : list ascii) : list ascii :=
  match l with
  | [] => []
  | c :: l' => if is_slash c then drop_slashes l' else l
  end.

(** Remove the slashes that stand at the end of [s], reading [s] from its
    end: one or more of them, or none if there is none. *)
Definition stripTrailingSlashes (s : string) : string :=
  string_of_list_ascii (rev (drop_slashes (rev (list_ascii_of_string s)))).

(** The intro banner: the fixed template around the status label, the
    message and the timestamp. *)
Definition banner (label message tested_on : string) : string :=
  "<div>BK Connection Test: " +:+ label +:+ "<br>" +:+ message
  +:+ "<br><small>Last tested: " +:+ tested_on +:+ "</small></div>".

(** The endpoint suffix of each derived field. *)
Definition derived_fields : list (string * string) :=
  [ ("auth_url", "authenticate");
    ("validation_url", "validate_customer");
    ("payment_notification_url", "payment_notification");
    ("payment_callback_url", "payment_callback");
    ("payment_reversal_url", "payment_reversal") ].

(** [n] slashes. *)
Fixpoint slashes (n : nat) : string :=
  match n with
  | O => EmptyString
  | S n' => String "/" (slashes n')
  end.

(** The five writes of [generate_urls], for a base already trimmed. *)
Definition write_urls (base : string) (doc : gmap string value) : gmap string value :=
  set_value "payment_reversal_url"
    (base +:+ "/api/method/bk_integration.api.payment_reversal")
  (set_value "payment_callback_url"
    (base +:+ "/api/method/bk_integration.api.payment_callback")
  (set_value "payment_notification_url"
    (base +:+ "/api/method/bk_integration.api.payment_notification")
  (set_value "validation_url"
    (base +:+ "/api/method/bk_integration.api.validate_customer")
  (set_value "auth_url"
    (base +:+ "/api/method/bk_integration.api.authenticate") doc)))).

(** The value the base is taken from: [erp_base_url || origin || ""]. *)
Definition base_source (origin : string) (doc : gmap string value) : value :=
  Js.or (Js.or (get doc "erp_base_url") (Str origin)) (Str "").

(** A record after a failed test whose message carries markup. *)
Definition failed_doc : gmap string value :=
  <["last_test_status" := Str "FAILED"]>
    (<["last_test_message" := Str "<script>x</script>"]>
       (<["last_test_on" := Str "2024-05-01 10:00:00"]> ∅)).

(** [s] ends with a slash. *)
Fixpoint ends_with_slash (s : string) : bool :=
  match s with
  | EmptyString => false
  | String c EmptyString => is_slash c
  | String _ s' => ends_with_slash s'
  end.

(** The names of the five derived fields. *)
Definition derived_names : list string := List.map fst derived_fields.

(** ** The form and its event handlers *)

(** The form as the handlers reach it: the record, the calls made on the
    screen so far, and the custom buttons added, each with its label and the
    name of the handler its click triggers. *)
Record form : Type := Form {
  form_doc : gmap string value;
  form_calls : list host_call;
  form_buttons : list (string * string)
}.

(** [frm.add_custom_button(label, () => frm.trigger(event))] *)
Definition add_custom_button (label event : string) (frm : form) : form :=
  Form (form_doc frm) (form_calls frm) (form_buttons frm ++ [(label, event)])%list.

(** The host's [frm.trigger] dispatches a name to the handler registered under
    it.  This is all the theorems ask of it: when the handler returns on a
    form, so does the trigger, with the handler's outcome. *)
Definition dispatches (trigger : string -> form -> completion form)
    (name : string) (handler : form -> completion form) : Prop :=
  forall frm frm', handler frm = Normal frm' -> trigger name frm = Normal frm'.

Module MainForm.

Section WithHost.

Variable origin : string.
Variable escape_html : value -> string.
(** The host's [frm.trigger]. *)
Variable trigger : string -> form -> completion form.

(** [generate_urls(frm)], on the form. *)
Definition generate_urls (frm : form) : completion form :=
  Js.map (fun doc => Form doc (form_calls frm) (form_buttons frm))
         (Main.generate_urls origin (form_doc frm)).

(** [render_test_status(frm)], on the form. *)
Definition render_test_status (frm : form) : completion form :=
  Js.map (fun calls =>
            Form (form_doc frm) (form_calls frm ++ calls)%list (form_buttons frm))
         (Main.render_test_status escape_html (form_doc frm)).

Definition refresh (frm : form) : completion form :=
  let* frm := trigger "generate_urls" frm in
  let* frm := trigger "render_test_status" frm in
  if truthy (get (form_doc frm) "enable_integration")
  then Normal (add_custom_button "Test Connection" "test_connection" frm)
  else Normal frm.

Definition erp_base_url (frm : form) : completion form :=
  trigger "generate_urls" frm.

Definition enable_integration (frm : form) : completion form :=
  let* frm := trigger "generate_urls" frm in
  trigger "render_test_status" frm.

End WithHost.

End MainForm.

Module VariantForm.

Section WithHost.

Variable cint : value -> Z.
Variable origin : string.
(** The host's [frm.trigger]. *)
Variable trigger : string -> form -> completion form.

(** [generate_urls(frm)], on the form. *)
Definition generate_urls (frm : form) : completion form :=
  Js.map (fun doc => Form doc (form_calls frm) (form_buttons frm))
         (Variant.generate_urls cint origin (form_doc frm)).

Definition refresh (frm : form) : completion form :=
  trigger "generate_urls" frm.

Definition erp_base_url (frm : form) : completion form :=
  trigger "generate_urls" frm.

Definition enable_integration (frm : form) : completion form :=
  trigger "generate_urls" frm.

End WithHost.

End VariantForm.

(** A [frm.trigger] for the main controller: the two handlers it triggers on
    itself, by name; any other name has no handler here and does nothing. *)
Definition main_trigger (origin : string) (escape_html : value -> string)
    (name : string) (frm : form) : completion form :=
  if String.eqb name "generate_urls" then MainForm.generate_urls origin frm
  else if String.eqb name "render_test_status"
       then MainForm.render_test_status escape_html frm
       else Normal frm.

(** A [frm.trigger] for the variant. *)
Definition variant_trigger (cint : value -> Z) (origin : string)
    (name : string) (frm : form) : completion form :=
  if String.eqb name "generate_urls" then VariantForm.generate_urls cint origin frm
  else Normal frm.

(** A record with the integration on, two slashes after its base and a
    failed last test. *)
Definition enabled_doc : gmap string value :=
  <["enable_integration" := Num 1]>
    (<["erp_base_url" := Str "https://erp.example.com//"]>
       (<["last_test_status" := Str "failed"]> ∅)).

(** * Properties *)

(** ** Strings *)

Section StringFacts.

Lemma all_slashes_forallb s :
  all_slashes s = forallb is_slash (list_ascii_of_string s).
Proof. induction s as [|c s IH]; simpl; [reflexivity | now rewrite IH]. Qed.

Lemma replace_all_slashes s : all_slashes s = true -> replace_trailing_slashes s = "".
Proof.
  destruct s as [|c s]; simpl; [reflexivity |].
  intros H. now rewrite H.
Qed.

Lemma all_slashes_append s t :
  all_slashes (s +:+ t) = all_slashes s && all_slashes t.
Proof.
  induction s as [|c s IH]; simpl; [reflexivity |].
  now rewrite IH, andb_assoc.
Qed.

Lemma all_slashes_slashes n : all_slashes (slashes n) = true.
Proof. induction n; simpl; auto. Qed.

Lemma drop_slashes_app l1 l2 :
  drop_slashes (l1 ++ l2)%list =
  if forallb is_slash l1 then drop_slashes l2 else (drop_slashes l1 ++ l2)%list.
Proof.
  induction l1 as [|c l1 IH]; simpl; [reflexivity |].
  destruct (is_slash c); simpl; [exact IH | reflexivity].
Qed.

Lemma forallb_rev {A} (f : A -> bool) l : forallb f (rev l) = forallb f l.
Proof.
  induction l as [|a l IH]; simpl; [reflexivity |].
  rewrite forallb_app, IH. simpl. rewrite andb_true_r. apply andb_comm.
Qed.

Lemma replace_trailing_slashes_list s :
  list_ascii_of_string (replace_trailing_slashes s) =
  rev (drop_slashes (rev (list_ascii_of_string s))).
Proof.
  induction s as [|c s IH]; simpl; [reflexivity |].
  rewrite drop_slashes_app, forallb_rev, <- all_slashes_forallb.
  destruct (all_slashes s) eqn:Hs.
  - rewrite andb_true_r. simpl.
    destruct (is_slash c); simpl; [reflexivity |].
    now rewrite (replace_all_slashes s Hs).
  - rewrite andb_false_r. simpl. rewrite rev_app_distr. simpl.
    now rewrite IH.
Qed.

(** The regular-expression replacement of the source trims exactly the
    trailing slashes, as the spec words it. *)
Lemma replace_trailing_slashes_strip s :
  replace_trailing_slashes s = stripTrailingSlashes s.
Proof.
  unfold stripTrailingSlashes. rewrite <- replace_trailing_slashes_list.
  now rewrite string_of_list_ascii_of_string.
Qed.

Lemma replace_trailing_slashes_slashes s n :
  replace_trailing_slashes (s +:+ slashes n) = replace_trailing_slashes s.
Proof.
  induction s as [|c s IH]; simpl.
  - apply replace_all_slashes, all_slashes_slashes.
  - now rewrite all_slashes_append, all_slashes_slashes, andb_true_r, IH.
Qed.

Lemma truthy_Str s : truthy (Str s) = true <-> s <> "".
Proof.
  simpl. destruct (String.eqb_spec s ""); simpl; split; congruence.
Qed.

End StringFacts.

(** ** Reading and writing the record *)

Section RecordFacts.

Implicit Types (doc : gmap string value) (k f v : string).

Lemma get_set_value_eq doc k v : get (set_value k v doc) k = Str v.
Proof. unfold get, set_value. now rewrite lookup_insert_eq. Qed.

Lemma get_set_value_ne doc k f v : k <> f -> get (set_value k v doc) f = get doc f.
Proof. intros H. unfold get, set_value. now rewrite lookup_insert_ne. Qed.

Lemma get_insert_eq doc k (x : value) : get (<[k := x]> doc) k = x.
Proof. unfold get. now rewrite lookup_insert_eq. Qed.

Lemma get_insert_ne doc k f (x : value) : k <> f -> get (<[k := x]> doc) f = get doc f.
Proof. intros H. unfold get. now rewrite lookup_insert_ne. Qed.

End RecordFacts.

(** ** URL derivation *)

Section UrlFacts.

Implicit Types (doc : gmap string value) (origin base : string).

Ltac string_ne := let H := fresh in intros H; discriminate H.

Lemma generate_urls_unfold origin doc :
  Main.generate_urls origin doc =
  if truthy (get doc "enable_integration")
  then Js.map (fun b => write_urls (replace_trailing_slashes b) doc)
              (as_string (base_source origin doc))
  else Normal doc.
Proof.
  unfold Main.generate_urls, base_source.
  destruct (truthy (get doc "enable_integration")); simpl; [| reflexivity].
  destruct (as_string _); reflexivity.
Qed.

Lemma get_write_urls base doc field suffix :
  In (field, suffix) derived_fields ->
  get (write_urls base doc) field =
  Str (base +:+ "/api/method/bk_integration.api." +:+ suffix).
Proof.
  unfold derived_fields, write_urls. simpl.
  intros [H|[H|[H|[H|[H|[]]]]]]; inversion H; subst; clear H;
    repeat (rewrite get_set_value_ne by string_ne);
    rewrite get_set_value_eq; reflexivity.
Qed.

Lemma get_write_urls_other base doc k :
  (forall suffix, ~ In (k, suffix) derived_fields) ->
  get (write_urls base doc) k = get doc k.
Proof.
  intros H. unfold write_urls.
  repeat (rewrite get_set_value_ne;
          [| intros <-; eapply H; simpl; eauto 10]).
  reflexivity.
Qed.

Lemma base_source_erp origin doc base :
  get doc "erp_base_url" = Str base -> base <> "" ->
  base_source origin doc = Str base.
Proof.
  intros E Hne. unfold base_source, Js.or. rewrite E.
  apply truthy_Str in Hne. now rewrite !Hne.
Qed.

Lemma base_source_origin origin doc :
  truthy (get doc "erp_base_url") = false ->
  base_source origin doc = Str origin.
Proof.
  intros E. unfold base_source, Js.or. rewrite E. simpl.
  destruct (String.eqb_spec origin ""); simpl; congruence.
Qed.

End UrlFacts.

Section GenerateUrls.

Implicit Types (doc : gmap string value) (origin base : string).

(** C1.  On a record whose [enable_integration] is true and whose
    [erp_base_url] is a non-empty string, [generate_urls] returns, and each of
    the five derived fields then holds the base with its trailing slashes
    stripped, followed by "/api/method/bk_integration.api." and the field's
    fixed suffix. *)
Theorem generate_urls_derives_from_base origin doc base :
  truthy (get doc "enable_integration") = true ->
  get doc "erp_base_url" = Str base ->
  base <> "" ->
  exists doc',
    Main.generate_urls origin doc = Normal doc' /\
    forall field suffix, In (field, suffix) derived_fields ->
      get doc' field =
      Str (stripTrailingSlashes base +:+ "/api/method/bk_integration.api." +:+ suffix).
Proof.
  intros Hen Hbase Hne.
  exists (write_urls (replace_trailing_slashes base) doc). split.
  - rewrite generate_urls_unfold, Hen, (base_source_erp _ _ _ Hbase Hne).
    reflexivity.
  - intros field suffix Hin.
    rewrite <- replace_trailing_slashes_strip. now apply get_write_urls.
Qed.

Lemma generate_urls_derives_from_base_witness :
  exists doc',
    Main.generate_urls "https://app.local"
      (<["enable_integration" := Num 1]>
         (<["erp_base_url" := Str "https://erp.example.com//"]> ∅)) = Normal doc' /\
    forall field suffix, In (field, suffix) derived_fields ->
      get doc' field =
      Str (stripTrailingSlashes "https://erp.example.com//"
           +:+ "/api/method/bk_integration.api." +:+ suffix).
Proof.
  apply (generate_urls_derives_from_base "https://app.local"
           (<["enable_integration" := Num 1]>
              (<["erp_base_url" := Str "https://erp.example.com//"]> ∅))
           "https://erp.example.com//").
  - reflexivity.
  - reflexivity.
  - discriminate.
Defined.

(** C2.  On a record whose [enable_integration] is false, [generate_urls]
    returns the record as it received it, every field included; so does the
    variant's [generate_urls], whose guard reads the flag through a [cint]
    that sends 0 to 0. *)
Theorem generate_urls_disabled_noop (cint : value -> Z) origin doc :
  truthy (get doc "enable_integration") = false ->
  cint (Num 0) = 0%Z ->
  Main.generate_urls origin doc = Normal doc /\
  Variant.generate_urls cint origin doc = Normal doc.
Proof.
  intros Hen Hc. split.
  - now rewrite generate_urls_unfold, Hen.
  - unfold Variant.generate_urls, Js.or. now rewrite Hen, Hc.
Qed.

Lemma generate_urls_disabled_noop_witness :
  let doc : gmap string value :=
    <["enable_integration" := Bool false]>
      (<["erp_base_url" := Str "https://erp.example.com"]>
         (<["auth_url" := Str "stale"]> ∅)) in
  Main.generate_urls "https://app.local" doc = Normal doc /\
  Variant.generate_urls Host.cint "https://app.local" doc = Normal doc.
Proof.
  intros doc.
  apply (generate_urls_disabled_noop Host.cint "https://app.local" doc).
  - reflexivity.
  - reflexivity.
Defined.

(** C5.  On a record whose [enable_integration] is true and whose
    [erp_base_url] is empty or unset, [generate_urls] takes the ambient origin
    as the base; with the origin "https://app.local" the field [auth_url]
    becomes "https://app.local/api/method/bk_integration.api.authenticate",
    and the other four fields follow with their suffixes. *)
Theorem generate_urls_falls_back_to_origin origin doc :
  truthy (get doc "enable_integration") = true ->
  truthy (get doc "erp_base_url") = false ->
  exists doc',
    Main.generate_urls origin doc = Normal doc' /\
    (forall field suffix, In (field, suffix) derived_fields ->
       get doc' field =
       Str (stripTrailingSlashes origin +:+ "/api/method/bk_integration.api."
            +:+ suffix)) /\
    (origin = "https://app.local" ->
       get doc' "auth_url" =
         Str "https://app.local/api/method/bk_integration.api.authenticate" /\
       get doc' "validation_url" =
         Str "https://app.local/api/method/bk_integration.api.validate_customer" /\
       get doc' "payment_notification_url" =
         Str "https://app.local/api/method/bk_integration.api.payment_notification" /\
       get doc' "payment_callback_url" =
         Str "https://app.local/api/method/bk_integration.api.payment_callback" /\
       get doc' "payment_reversal_url" =
         Str "https://app.local/api/method/bk_integration.api.payment_reversal").
Proof.
  intros Hen Hbase.
  exists (write_urls (replace_trailing_slashes origin) doc).
  split; [| split].
  - rewrite generate_urls_unfold, Hen, (base_source_origin _ _ Hbase).
    reflexivity.
  - intros field suffix Hin.
    rewrite <- replace_trailing_slashes_strip. now apply get_write_urls.
  - intros ->.
    repeat split;
      match goal with
      | |- get _ ?f = _ =>
          erewrite (get_write_urls _ _ f) by (simpl; eauto 10); reflexivity
      end.
Qed.

Lemma generate_urls_falls_back_to_origin_witness :
  exists doc',
    Main.generate_urls "https://app.local"
      (<["enable_integration" := Bool true]>
         (<["erp_base_url" := Str ""]> ∅)) = Normal doc' /\
    get doc' "auth_url" =
      Str "https://app.local/api/method/bk_integration.api.authenticate".
Proof.
  destruct (generate_urls_falls_back_to_origin "https://app.local"
              (<["enable_integration" := Bool true]>
                 (<["erp_base_url" := Str ""]> ∅)))
    as (doc' & Hrun & _ & Hlit).
  - reflexivity.
  - reflexivity.
  - exists doc'. split; [exact Hrun |]. exact (proj1 (Hlit eq_refl)).
Defined.

End GenerateUrls.

Section GenerateUrlsRelational.

Implicit Types (doc : gmap string value) (origin base : string).

Lemma variant_generate_urls_unfold (cint : value -> Z) origin doc :
  Variant.generate_urls cint origin doc =
  if (cint (Js.or (get doc "enable_integration") (Num 0)) =? 0)%Z
  then Normal doc
  else Js.map (fun b => write_urls (replace_trailing_slashes b) doc)
              (as_string (base_source origin doc)).
Proof.
  unfold Variant.generate_urls, base_source.
  destruct (_ =? _)%Z; simpl; [reflexivity |].
  destruct (as_string _); reflexivity.
Qed.

Lemma write_urls_twice base doc :
  write_urls base (write_urls base doc) = write_urls base doc.
Proof.
  apply map_eq. intros k. unfold write_urls, set_value.
  rewrite !lookup_insert. repeat case_decide; reflexivity.
Qed.

Lemma base_source_ext origin doc doc' :
  get doc' "erp_base_url" = get doc "erp_base_url" ->
  base_source origin doc' = base_source origin doc.
Proof. intros H. unfold base_source. now rewrite H. Qed.

Lemma write_urls_keeps_inputs base doc :
  get (write_urls base doc) "enable_integration" = get doc "enable_integration" /\
  get (write_urls base doc) "erp_base_url" = get doc "erp_base_url".
Proof.
  split; apply get_write_urls_other; intros suffix;
    simpl; intros [H|[H|[H|[H|[H|[]]]]]]; discriminate H.
Qed.

(** Two runs whose untrimmed bases differ by slashes at the end write the
    same five values, whichever of [erp_base_url] and the origin each base
    comes from. *)
Lemma generate_urls_base_slashes origin1 origin2 doc1 doc2 base n :
  truthy (get doc1 "enable_integration") = true ->
  truthy (get doc2 "enable_integration") = true ->
  base_source origin1 doc1 = Str base ->
  base_source origin2 doc2 = Str (base +:+ slashes n) ->
  exists d1 d2,
    Main.generate_urls origin1 doc1 = Normal d1 /\
    Main.generate_urls origin2 doc2 = Normal d2 /\
    forall field suffix, In (field, suffix) derived_fields ->
      get d1 field = get d2 field.
Proof.
  intros H1 H2 B1 B2. eexists _, _. split; [| split].
  - rewrite generate_urls_unfold, H1, B1. reflexivity.
  - rewrite generate_urls_unfold, H2, B2. reflexivity.
  - intros field suffix Hin.
    rewrite !(get_write_urls _ _ field suffix Hin).
    now rewrite replace_trailing_slashes_slashes.
Qed.

(** C3, counterexample.  With the empty base the record falls back to the
    origin, while the base made of one slash is used as it is: under the
    origin "https://app.local" the two records get different [auth_url]s. *)
Lemma generate_urls_empty_base_vs_slash :
  exists d1 d2,
    Main.generate_urls "https://app.local"
      (<["erp_base_url" := Str ""]>
         (<["enable_integration" := Bool true]> ∅)) = Normal d1 /\
    Main.generate_urls "https://app.local"
      (<["erp_base_url" := Str ("" +:+ slashes 1)]>
         (<["enable_integration" := Bool true]> ∅)) = Normal d2 /\
    get d1 "auth_url" =
      Str "https://app.local/api/method/bk_integration.api.authenticate" /\
    get d2 "auth_url" = Str "/api/method/bk_integration.api.authenticate" /\
    get d1 "auth_url" <> get d2 "auth_url".
Proof.
  eexists _, _. split; [reflexivity |]. split; [reflexivity |].
  split; [reflexivity |]. split; [reflexivity |].
  vm_compute. discriminate.
Qed.

(** C3, amended.  For every non-empty base string and every number of
    slashes appended to it, [generate_urls] (with [enable_integration] true)
    yields the same value in each of the five derived fields for the base and
    for the extended base. *)
Theorem generate_urls_ignores_trailing_slashes origin doc base n :
  truthy (get doc "enable_integration") = true ->
  base <> "" ->
  exists d1 d2,
    Main.generate_urls origin (<["erp_base_url" := Str base]> doc) = Normal d1 /\
    Main.generate_urls origin
      (<["erp_base_url" := Str (base +:+ slashes n)]> doc) = Normal d2 /\
    forall field suffix, In (field, suffix) derived_fields ->
      get d1 field = get d2 field.
Proof.
  intros Hen Hne.
  assert (Hne' : base +:+ slashes n <> "")
    by (destruct base; [congruence | discriminate]).
  apply (generate_urls_base_slashes _ _ _ _ base n).
  - now rewrite get_insert_ne by discriminate.
  - now rewrite get_insert_ne by discriminate.
  - apply base_source_erp; auto using get_insert_eq.
  - apply base_source_erp; auto using get_insert_eq.
Qed.

Lemma generate_urls_ignores_trailing_slashes_witness :
  exists d1 d2,
    Main.generate_urls "https://app.local"
      (<["erp_base_url" := Str "https://x.com"]>
         (<["enable_integration" := Bool true]> ∅)) = Normal d1 /\
    Main.generate_urls "https://app.local"
      (<["erp_base_url" := Str "https://x.com///"]>
         (<["enable_integration" := Bool true]> ∅)) = Normal d2 /\
    forall field suffix, In (field, suffix) derived_fields ->
      get d1 field = get d2 field.
Proof.
  apply (generate_urls_ignores_trailing_slashes "https://app.local"
           (<["enable_integration" := Bool true]> ∅) "https://x.com" 3).
  - reflexivity.
  - discriminate.
Defined.

(** C4.  Running [generate_urls] a second time on the record the first run
    returned gives that same record (and a run that throws leaves nothing to
    rerun); and what a run derives depends on [enable_integration],
    [erp_base_url] and the origin alone: two records that agree on the two
    fields end with the same five derived values when the flag is true, and
    both are returned as they were when it is false. *)
Theorem generate_urls_idempotent_and_pure origin doc :
  Js.bind (Main.generate_urls origin doc) (Main.generate_urls origin) =
    Main.generate_urls origin doc /\
  forall doc',
    get doc' "enable_integration" = get doc "enable_integration" ->
    get doc' "erp_base_url" = get doc "erp_base_url" ->
    (truthy (get doc "enable_integration") = true ->
       forall field suffix, In (field, suffix) derived_fields ->
         Js.map (fun d => get d field) (Main.generate_urls origin doc') =
         Js.map (fun d => get d field) (Main.generate_urls origin doc)) /\
    (truthy (get doc "enable_integration") = false ->
       Main.generate_urls origin doc' = Normal doc' /\
       Main.generate_urls origin doc = Normal doc).
Proof.
  split.
  - rewrite generate_urls_unfold.
    destruct (truthy (get doc "enable_integration")) eqn:Hen; simpl.
    + destruct (as_string (base_source origin doc)) as [b|] eqn:Hb; simpl;
        [| reflexivity].
      destruct (write_urls_keeps_inputs (replace_trailing_slashes b) doc)
        as [Ken Kerp].
      rewrite generate_urls_unfold, Ken, Hen.
      rewrite (base_source_ext origin _ _ Kerp), Hb. simpl.
      now rewrite write_urls_twice.
    + now rewrite generate_urls_unfold, Hen.
  - intros doc' Een Eerp. split.
    + intros Hen field suffix Hin.
      rewrite !generate_urls_unfold, Een, Hen, (base_source_ext origin _ _ Eerp).
      destruct (as_string (base_source origin doc)) as [b|]; simpl;
        [| reflexivity].
      now rewrite !(get_write_urls _ _ field suffix Hin).
    + intros Hen. rewrite !generate_urls_unfold, Een, Hen. now split.
Qed.

Lemma generate_urls_idempotent_and_pure_witness :
  let doc : gmap string value :=
    <["enable_integration" := Num 1]>
      (<["erp_base_url" := Str "https://erp.example.com/"]> ∅) in
  let doc' : gmap string value := <["auth_url" := Str "stale"]> doc in
  Js.bind (Main.generate_urls "https://app.local" doc)
          (Main.generate_urls "https://app.local") =
    Main.generate_urls "https://app.local" doc /\
  Js.map (fun d => get d "auth_url") (Main.generate_urls "https://app.local" doc') =
  Js.map (fun d => get d "auth_url") (Main.generate_urls "https://app.local" doc).
Proof.
  intros doc doc'.
  destruct (generate_urls_idempotent_and_pure "https://app.local" doc)
    as [Hidem Hpure].
  split; [exact Hidem |].
  destruct (Hpure doc') as [Hon _].
  - reflexivity.
  - reflexivity.
  - apply (Hon eq_refl "auth_url" "authenticate"). simpl. auto.
Defined.

(** C10.  When [enable_integration] is a boolean or one of the integers 0 and
    1, and the host's [cint] sends 0 to 0 and sends [true] and 1 to non-zero
    integers, the variant's [generate_urls] and the main controller's return
    the same outcome on every record and origin: the same record, with the
    same five derived values, and the record untouched in the same cases. *)
Theorem generate_urls_variants_agree (cint : value -> Z) origin doc :
  cint (Num 0) = 0%Z ->
  cint (Num 1) <> 0%Z ->
  cint (Bool true) <> 0%Z ->
  (exists b, get doc "enable_integration" = Bool b) \/
  get doc "enable_integration" = Num 0 \/
  get doc "enable_integration" = Num 1 ->
  Variant.generate_urls cint origin doc = Main.generate_urls origin doc.
Proof.
  intros H0 H1 Ht Hflag.
  rewrite variant_generate_urls_unfold, generate_urls_unfold.
  destruct Hflag as [[[|] E]|[E|E]]; rewrite E; unfold Js.or; simpl.
  - apply Z.eqb_neq in Ht. now rewrite Ht.
  - now rewrite H0.
  - now rewrite H0.
  - apply Z.eqb_neq in H1. now rewrite H1.
Qed.

Lemma generate_urls_variants_agree_witness :
  Variant.generate_urls Host.cint "https://app.local"
    (<["enable_integration" := Num 1]>
       (<["erp_base_url" := Str "https://erp.example.com/"]> ∅)) =
  Main.generate_urls "https://app.local"
    (<["enable_integration" := Num 1]>
       (<["erp_base_url" := Str "https://erp.example.com/"]> ∅)).
Proof.
  apply (generate_urls_variants_agree Host.cint).
  - reflexivity.
  - discriminate.
  - discriminate.
  - right. right. reflexivity.
Defined.

End GenerateUrlsRelational.

(** ** Status rendering *)

Section StatusFacts.

Lemma upper_ascii_twice c : upper_ascii (upper_ascii c) = upper_ascii c.
Proof. destruct c as [[] [] [] [] [] [] [] []]; reflexivity. Qed.

Lemma toUpperCase_twice s : toUpperCase (toUpperCase s) = toUpperCase s.
Proof.
  induction s as [|c s IH]; simpl; [reflexivity |].
  now rewrite upper_ascii_twice, IH.
Qed.

Lemma toUpperCase_nonempty s : s <> "" -> toUpperCase s <> "".
Proof. destruct s; [congruence | discriminate]. Qed.

Lemma occurrences_append c s t :
  occurrences c (s +:+ t) = occurrences c s + occurrences c t.
Proof.
  induction s as [|c' s IH]; simpl; [reflexivity |].
  rewrite IH. lia.
Qed.

Lemma escape_char_no_angle c :
  occurrences "<" (Host.escape_char c) = 0 /\
  occurrences ">" (Host.escape_char c) = 0.
Proof. destruct c as [[] [] [] [] [] [] [] []]; split; reflexivity. Qed.

Lemma escape_chars_no_angle s :
  occurrences "<" (Host.escape_chars s) = 0 /\
  occurrences ">" (Host.escape_chars s) = 0.
Proof.
  induction s as [|c s [IHl IHg]]; simpl; [split; reflexivity |].
  rewrite !occurrences_append, IHl, IHg.
  destruct (escape_char_no_angle c) as [-> ->]. split; reflexivity.
Qed.

Lemma host_escape_html_no_angle v :
  occurrences "<" (Host.escape_html v) = 0 /\
  occurrences ">" (Host.escape_html v) = 0.
Proof.
  unfold Host.escape_html.
  destruct (negb (truthy v)); [split; reflexivity | apply escape_chars_no_angle].
Qed.

End StatusFacts.

Section RenderTestStatus.

Variable escape_html : value -> string.

Implicit Types (doc : gmap string value) (s : string).

Lemma render_test_status_string doc s :
  get doc "last_test_status" = Str s ->
  s <> "" ->
  Main.render_test_status escape_html doc =
  Normal
    ((if String.eqb (toUpperCase s) "SUCCESS"
      then [show_alert "BK Connection: SUCCESS" "green"]
      else if String.eqb (toUpperCase s) "FAILED"
           then [show_alert "BK Connection: FAILED" "red"]
           else []) ++
     [set_intro
        (banner
           (if String.eqb (toUpperCase s) "SUCCESS"
            then Main.label_success else Main.label_failed)
           (escape_html (Js.or (get doc "last_test_message") (Str "")))
           (escape_html (Js.or (get doc "last_test_on") (Str ""))))
        (if String.eqb (toUpperCase s) "SUCCESS" then "green" else "red")])%list.
Proof.
  intros E Hne. unfold Main.render_test_status. rewrite E.
  assert (Ht : truthy (Str s) = true) by now apply truthy_Str.
  unfold Js.or at 1. rewrite Ht. cbn [as_string Js.map Js.bind].
  assert (Hu : truthy (Str (toUpperCase s)) = true)
    by now apply truthy_Str, toUpperCase_nonempty.
  rewrite Hu. reflexivity.
Qed.

Lemma banner_angles label m o :
  occurrences "<" label = 2 -> occurrences ">" label = 2 ->
  occurrences "<" m = 0 -> occurrences ">" m = 0 ->
  occurrences "<" o = 0 -> occurrences ">" o = 0 ->
  occurrences "<" (banner label m o) = 8 /\
  occurrences ">" (banner label m o) = 8.
Proof.
  intros L1 L2 M1 M2 O1 O2. unfold banner.
  rewrite !occurrences_append, L1, L2, M1, M2, O1, O2.
  split; reflexivity.
Qed.

(** C6.  Whenever the banner is written, its HTML is the fixed template with
    the status label, [escape_html] of the message and [escape_html] of the
    timestamp in its three holes, for every message and timestamp: neither
    text enters the banner except through [escape_html], and the alerts
    carry neither.  With an [escape_html] whose output holds no angle
    bracket, the banner holds the eight tags of the template and no other. *)
Theorem render_test_status_escapes doc s :
  get doc "last_test_status" = Str s ->
  s <> "" ->
  let message := escape_html (Js.or (get doc "last_test_message") (Str "")) in
  let tested_on := escape_html (Js.or (get doc "last_test_on") (Str "")) in
  exists fired label color,
    Main.render_test_status escape_html doc =
      Normal (fired ++ [set_intro (banner label message tested_on) color])%list /\
    (forall c, In c fired ->
       c = show_alert "BK Connection: SUCCESS" "green" \/
       c = show_alert "BK Connection: FAILED" "red") /\
    (label = Main.label_success \/ label = Main.label_failed) /\
    ((forall v, occurrences "<" (escape_html v) = 0 /\
                occurrences ">" (escape_html v) = 0) ->
     occurrences "<" (banner label message tested_on) = 8 /\
     occurrences ">" (banner label message tested_on) = 8).
Proof.
  intros E Hne message tested_on.
  rewrite (render_test_status_string doc s E Hne).
  eexists _, _, _. split; [reflexivity |].
  split; [| split].
  - intros c. destruct (String.eqb (toUpperCase s) "SUCCESS");
      [| destruct (String.eqb (toUpperCase s) "FAILED")]; simpl;
      intros H; try contradiction; destruct H as [<-|[]]; auto.
  - destruct (String.eqb (toUpperCase s) "SUCCESS"); auto.
  - intros Hesc.
    destruct (Hesc (Js.or (get doc "last_test_message") (Str ""))) as [M1 M2].
    destruct (Hesc (Js.or (get doc "last_test_on") (Str ""))) as [O1 O2].
    apply banner_angles; auto;
      destruct (String.eqb (toUpperCase s) "SUCCESS"); reflexivity.
Qed.

Lemma render_test_status_with_string (upper : string -> string) doc s :
  get doc "last_test_status" = Str s ->
  s <> "" ->
  upper s <> "" ->
  Main.render_test_status_with upper escape_html doc =
  Normal
    ((if String.eqb (upper s) "SUCCESS"
      then [show_alert "BK Connection: SUCCESS" "green"]
      else if String.eqb (upper s) "FAILED"
           then [show_alert "BK Connection: FAILED" "red"]
           else []) ++
     [set_intro
        (banner
           (if String.eqb (upper s) "SUCCESS"
            then Main.label_success else Main.label_failed)
           (escape_html (Js.or (get doc "last_test_message") (Str "")))
           (escape_html (Js.or (get doc "last_test_on") (Str ""))))
        (if String.eqb (upper s) "SUCCESS" then "green" else "red")])%list.
Proof.
  intros E Hne Hup. unfold Main.render_test_status_with. rewrite E.
  assert (Ht : truthy (Str s) = true) by now apply truthy_Str.
  unfold Js.or at 1. rewrite Ht. cbn [as_string Js.map Js.bind].
  assert (Hu : truthy (Str (upper s)) = true) by now apply truthy_Str.
  rewrite Hu. reflexivity.
Qed.

(** With the upper-casing of the letters a..z for the built-in, the handler
    over a built-in is the handler above. *)
Lemma render_test_status_with_ascii doc :
  Main.render_test_status_with toUpperCase escape_html doc =
  Main.render_test_status escape_html doc.
Proof. reflexivity. Qed.

(** C7.  For a non-empty status whose upper-case form is neither "SUCCESS"
    nor "FAILED", the only call made is [set_intro], with the red "FAILED"
    label and the color "red": no alert fires, the alerts on the screen stay
    as they were and the banner is replaced.  The upper-case form is that of
    the built-in [toUpperCase], of which the theorem uses one fact: the
    upper-case form of a non-empty string is not empty. *)
Theorem render_test_status_other_status (upper : string -> string) doc s ui :
  (forall t, t <> "" -> upper t <> "") ->
  get doc "last_test_status" = Str s ->
  s <> "" ->
  upper s <> "SUCCESS" ->
  upper s <> "FAILED" ->
  let html :=
    banner
      ("<span style=" +:+ String "034"%char "color:#c0392b;font-weight:600;"
       +:+ String "034"%char ">FAILED</span>")
      (escape_html (Js.or (get doc "last_test_message") (Str "")))
      (escape_html (Js.or (get doc "last_test_on") (Str ""))) in
  Main.render_test_status_with upper escape_html doc =
    Normal [set_intro html "red"] /\
  Js.map (perform_all ui) (Main.render_test_status_with upper escape_html doc) =
    Normal (Screen (alerts ui) (Some (html, "red"))).
Proof.
  intros Hupper E Hne Hs Hf html.
  rewrite (render_test_status_with_string upper doc s E Hne (Hupper s Hne)).
  apply String.eqb_neq in Hs, Hf. rewrite Hs, Hf. split; reflexivity.
Qed.

(** C8.  The status is compared through its upper-case form: a status and
    its upper-case form make the same calls, and "success" makes the calls of
    "SUCCESS", which are the green success alert followed by the banner with
    the green "SUCCESS" label and the color "green". *)
Theorem render_test_status_case_insensitive doc :
  (forall s,
     Main.render_test_status escape_html
       (<["last_test_status" := Str s]> doc) =
     Main.render_test_status escape_html
       (<["last_test_status" := Str (toUpperCase s)]> doc)) /\
  Main.render_test_status escape_html
    (<["last_test_status" := Str "success"]> doc) =
  Main.render_test_status escape_html
    (<["last_test_status" := Str "SUCCESS"]> doc) /\
  Main.render_test_status escape_html
    (<["last_test_status" := Str "success"]> doc) =
  Normal
    [show_alert "BK Connection: SUCCESS" "green";
     set_intro
       (banner
          ("<span style=" +:+ String "034"%char "color:#178a2f;font-weight:600;"
       +:+ String "034"%char ">SUCCESS</span>")
          (escape_html (Js.or (get doc "last_test_message") (Str "")))
          (escape_html (Js.or (get doc "last_test_on") (Str ""))))
       "green"].
Proof.
  assert (Hgen : forall s,
     Main.render_test_status escape_html
       (<["last_test_status" := Str s]> doc) =
     Main.render_test_status escape_html
       (<["last_test_status" := Str (toUpperCase s)]> doc)).
  { intros s. destruct (string_dec s "") as [->|Hne]; [reflexivity |].
    rewrite (render_test_status_string _ s (get_insert_eq _ _ _) Hne).
    rewrite (render_test_status_string _ (toUpperCase s) (get_insert_eq _ _ _)
               (toUpperCase_nonempty s Hne)).
    rewrite toUpperCase_twice.
    rewrite !get_insert_ne by discriminate. reflexivity. }
  split; [exact Hgen |]. split; [exact (Hgen "success") |].
  rewrite (render_test_status_string _ "success" (get_insert_eq _ _ _))
    by discriminate.
  rewrite !get_insert_ne by discriminate. reflexivity.
Qed.

(** C9.  When the status is empty or unset (or any other falsy value),
    [render_test_status] makes no call at all: no alert fires, [set_intro] is
    not called, and the screen, its banner included, stays as it was. *)
Theorem render_test_status_unset_noop doc ui :
  truthy (get doc "last_test_status") = false ->
  Main.render_test_status escape_html doc = Normal [] /\
  Js.map (perform_all ui) (Main.render_test_status escape_html doc) = Normal ui.
Proof.
  intros H. unfold Main.render_test_status, Js.or. rewrite H.
  split; reflexivity.
Qed.

End RenderTestStatus.

Section RenderTestStatusExamples.

Lemma render_test_status_escapes_witness :
  exists fired label color,
    Main.render_test_status Host.escape_html failed_doc =
      Normal (fired ++
              [set_intro
                 (banner label "&lt;script&gt;x&lt;/script&gt;"
                    "2024-05-01 10:00:00")
                 color])%list /\
    occurrences "<"
      (banner label "&lt;script&gt;x&lt;/script&gt;" "2024-05-01 10:00:00") = 8.
Proof.
  destruct (render_test_status_escapes Host.escape_html failed_doc "FAILED"
              eq_refl)
    as (fired & label & color & Hrun & _ & _ & Hangles).
  - discriminate.
  - exists fired, label, color. split; [exact Hrun |].
    exact (proj1 (Hangles host_escape_html_no_angle)).
Defined.

(** The calls made for that record, evaluated. *)
Example render_test_status_script_message :
  Main.render_test_status Host.escape_html failed_doc =
  Normal
    [show_alert "BK Connection: FAILED" "red";
     set_intro
       (banner Main.label_failed "&lt;script&gt;x&lt;/script&gt;"
          "2024-05-01 10:00:00")
       "red"].
Proof. reflexivity. Qed.

Lemma render_test_status_other_status_witness :
  let doc : gmap string value :=
    <["last_test_status" := Str "ERROR"]>
      (<["last_test_message" := Str "timeout"]> ∅) in
  let ui := Screen [("BK Connection: SUCCESS", "green")] None in
  let html :=
    banner
      ("<span style=" +:+ String "034"%char "color:#c0392b;font-weight:600;"
       +:+ String "034"%char ">FAILED</span>")
      "timeout" "" in
  Main.render_test_status_with toUpperCase Host.escape_html doc =
    Normal [set_intro html "red"] /\
  Js.map (perform_all ui)
    (Main.render_test_status_with toUpperCase Host.escape_html doc) =
    Normal (Screen [("BK Connection: SUCCESS", "green")] (Some (html, "red"))).
Proof.
  intros doc ui html.
  apply (render_test_status_other_status Host.escape_html toUpperCase doc
           "ERROR" ui).
  - exact toUpperCase_nonempty.
  - reflexivity.
  - discriminate.
  - discriminate.
  - discriminate.
Defined.

Lemma render_test_status_unset_noop_witness :
  let doc : gmap string value := <["last_test_message" := Str "old"]> ∅ in
  let ui := Screen [] (Some ("<div>earlier banner</div>", "green")) in
  Main.render_test_status Host.escape_html doc = Normal [] /\
  Js.map (perform_all ui) (Main.render_test_status Host.escape_html doc) =
    Normal ui.
Proof.
  intros doc ui.
  apply (render_test_status_unset_noop Host.escape_html doc ui).
  reflexivity.
Defined.

End RenderTestStatusExamples.

(** * Further properties of the controllers *)

(** ** Trimming, seen from the end of the string *)

Section TrimFacts.

Lemma ends_with_slash_cons c s :
  ends_with_slash (String c s) =
  match s with EmptyString => is_slash c | _ => ends_with_slash s end.
Proof. destruct s; reflexivity. Qed.

Lemma all_slashes_is_slashes s : all_slashes s = true -> s = slashes (String.length s).
Proof.
  induction s as [|c s IH]; simpl; [reflexivity |].
  intros H. apply andb_true_iff in H as [Hc Hs].
  apply Ascii.eqb_eq in Hc. subst c. now rewrite <- IH.
Qed.

Lemma all_slashes_ends_with_slash s :
  all_slashes s = true -> s <> "" -> ends_with_slash s = true.
Proof.
  induction s as [|c s IH]; [congruence |].
  simpl all_slashes. intros H _. apply andb_true_iff in H as [Hc Hs].
  rewrite ends_with_slash_cons. destruct s as [|c' s']; [exact Hc |].
  apply IH; [exact Hs | discriminate].
Qed.

Lemma replace_empty_all_slashes s :
  replace_trailing_slashes s = "" -> all_slashes s = true.
Proof.
  destruct s as [|c s]; simpl; [reflexivity |].
  destruct (is_slash c && all_slashes s); [reflexivity | discriminate].
Qed.

(** What the replacement returns never ends with a slash. *)
Lemma replace_trailing_slashes_no_slash s :
  ends_with_slash (replace_trailing_slashes s) = false.
Proof.
  induction s as [|c s IH]; simpl; [reflexivity |].
  destruct (is_slash c && all_slashes s) eqn:Hcond; [reflexivity |].
  rewrite ends_with_slash_cons.
  destruct (replace_trailing_slashes s) eqn:Hr; [| exact IH].
  apply replace_empty_all_slashes in Hr. rewrite Hr, andb_true_r in Hcond.
  exact Hcond.
Qed.

(** The replacement only cuts slashes off the end. *)
Lemma replace_trailing_slashes_cut s :
  exists n, s = replace_trailing_slashes s +:+ slashes n.
Proof.
  induction s as [|c s [n IH]]; simpl.
  - now exists 0.
  - destruct (is_slash c && all_slashes s) eqn:Hcond.
    + exists (String.length (String c s)). now apply all_slashes_is_slashes.
    + exists n.
      change (String c s = String c (replace_trailing_slashes s +:+ slashes n)).
      now rewrite <- IH.
Qed.

(** A string that does not end with a slash is returned as it is. *)
Lemma replace_trailing_slashes_fixed s :
  ends_with_slash s = false -> replace_trailing_slashes s = s.
Proof.
  induction s as [|c s IH]; simpl replace_trailing_slashes; [reflexivity |].
  intros H.
  destruct (is_slash c && all_slashes s) eqn:Hcond.
  - rewrite (all_slashes_ends_with_slash (String c s)) in H;
      [discriminate | exact Hcond | discriminate].
  - rewrite ends_with_slash_cons in H. destruct s as [|c' s']; [reflexivity |].
    now rewrite IH.
Qed.

Lemma lookup_write_urls_other base (doc : gmap string value) k :
  ~ In k derived_names ->
  write_urls base doc !! k = doc !! k.
Proof.
  intros H. unfold write_urls, set_value.
  repeat (rewrite lookup_insert_ne;
          [| intros <-; apply H; simpl; auto 10]).
  reflexivity.
Qed.

Lemma as_string_TypeError v :
  as_string v = TypeError <-> forall s, v <> Str s.
Proof.
  destruct v; simpl; split; intros H; try reflexivity; try discriminate;
    try (intros ? ?; discriminate).
  exfalso. now apply (H s).
Qed.

End TrimFacts.

(** ** More on URL derivation *)

Section GenerateUrlsMore.

Implicit Types (doc : gmap string value) (origin base : string).

Lemma base_source_cases origin doc :
  (truthy (get doc "erp_base_url") = true /\
   base_source origin doc = get doc "erp_base_url") \/
  (truthy (get doc "erp_base_url") = false /\
   base_source origin doc = Str origin).
Proof.
  destruct (truthy (get doc "erp_base_url")) eqn:E.
  - left. split; [reflexivity |]. unfold base_source, Js.or. now rewrite E, E.
  - right. split; [reflexivity |]. now apply base_source_origin.
Qed.

(** X1.  Whatever [generate_urls] returns, of the main controller or of the
    variant, holds every field other than the five derived ones exactly as
    the record it was given did: present with the same value, or absent. *)
Theorem generate_urls_leaves_other_fields (cint : value -> Z) origin doc doc' k :
  ~ In k derived_names ->
  Main.generate_urls origin doc = Normal doc' \/
  Variant.generate_urls cint origin doc = Normal doc' ->
  doc' !! k = doc !! k.
Proof.
  intros Hk [H|H].
  - rewrite generate_urls_unfold in H.
    destruct (truthy _); [| now inversion H].
    destruct (as_string _); inversion H. now apply lookup_write_urls_other.
  - rewrite variant_generate_urls_unfold in H.
    destruct (_ =? _)%Z; [now inversion H |].
    destruct (as_string _); inversion H. now apply lookup_write_urls_other.
Qed.

Lemma generate_urls_leaves_other_fields_witness :
  write_urls "https://erp.example.com" enabled_doc !! "last_test_status" =
  enabled_doc !! "last_test_status".
Proof.
  apply (generate_urls_leaves_other_fields Host.cint "https://app.local"
           enabled_doc (write_urls "https://erp.example.com" enabled_doc)
           "last_test_status").
  - simpl. intros [H|[H|[H|[H|[H|[]]]]]]; discriminate H.
  - left. reflexivity.
Defined.

(** X2.  [generate_urls] throws exactly when the integration is on and
    [erp_base_url] holds a truthy value that is not a string; the fallback to
    the origin never throws. *)
Theorem generate_urls_throws_iff origin doc :
  Main.generate_urls origin doc = TypeError <->
  truthy (get doc "enable_integration") = true /\
  truthy (get doc "erp_base_url") = true /\
  forall s, get doc "erp_base_url" <> Str s.
Proof.
  rewrite generate_urls_unfold.
  destruct (truthy (get doc "enable_integration")).
  - destruct (base_source_cases origin doc) as [[Ht ->]|[Hf ->]].
    + destruct (get doc "erp_base_url") eqn:E; simpl; split;
        try (intros _; repeat split; auto; intros ? ?; discriminate);
        try discriminate.
      intros (_ & _ & H). exfalso. now apply (H s).
    + simpl. split; [discriminate |]. intros (_ & Ht & _). congruence.
  - split; [discriminate |]. intros [H _]. discriminate H.
Qed.

(** X3.  With the integration on and a non-empty base that does not end with
    a slash, the base enters each derived URL as it is. *)
Theorem generate_urls_base_verbatim origin doc base :
  truthy (get doc "enable_integration") = true ->
  get doc "erp_base_url" = Str base ->
  base <> "" ->
  ends_with_slash base = false ->
  exists doc',
    Main.generate_urls origin doc = Normal doc' /\
    forall field suffix, In (field, suffix) derived_fields ->
      get doc' field = Str (base +:+ "/api/method/bk_integration.api." +:+ suffix).
Proof.
  intros Hen Hbase Hne Hend.
  exists (write_urls base doc). split.
  - rewrite generate_urls_unfold, Hen, (base_source_erp _ _ _ Hbase Hne).
    simpl. now rewrite (replace_trailing_slashes_fixed base Hend).
  - intros field suffix Hin. now apply get_write_urls.
Qed.

Lemma generate_urls_base_verbatim_witness :
  exists doc',
    Main.generate_urls "https://app.local"
      (<["enable_integration" := Bool true]>
         (<["erp_base_url" := Str "https://erp.example.com/bk"]> ∅)) = Normal doc' /\
    forall field suffix, In (field, suffix) derived_fields ->
      get doc' field =
      Str ("https://erp.example.com/bk" +:+ "/api/method/bk_integration.api."
           +:+ suffix).
Proof.
  apply (generate_urls_base_verbatim "https://app.local"
           (<["enable_integration" := Bool true]>
              (<["erp_base_url" := Str "https://erp.example.com/bk"]> ∅))
           "https://erp.example.com/bk").
  - reflexivity.
  - reflexivity.
  - discriminate.
  - reflexivity.
Defined.

(** X4.  In every record [generate_urls] returns with the integration on, the
    five URLs share one base [b]: the value of
    [erp_base_url || origin || ""] with nothing but slashes cut off its end,
    and not ending with a slash itself, so that exactly one slash separates
    it from "api". *)
Theorem generate_urls_single_slash origin doc doc' :
  truthy (get doc "enable_integration") = true ->
  Main.generate_urls origin doc = Normal doc' ->
  exists b n,
    base_source origin doc = Str (b +:+ slashes n) /\
    ends_with_slash b = false /\
    forall field suffix, In (field, suffix) derived_fields ->
      get doc' field = Str (b +:+ "/api/method/bk_integration.api." +:+ suffix).
Proof.
  intros Hen H. rewrite generate_urls_unfold, Hen in H.
  destruct (base_source origin doc) as [| |?|?|s] eqn:E; try discriminate H.
  simpl in H. inversion H; subst doc'; clear H.
  destruct (replace_trailing_slashes_cut s) as [n Hn].
  exists (replace_trailing_slashes s), n. split; [| split].
  - now rewrite <- Hn.
  - apply replace_trailing_slashes_no_slash.
  - intros field suffix Hin. now apply get_write_urls.
Qed.

Lemma generate_urls_single_slash_witness :
  exists b n,
    base_source "https://app.local" enabled_doc = Str (b +:+ slashes n) /\
    ends_with_slash b = false /\
    forall field suffix, In (field, suffix) derived_fields ->
      get (write_urls "https://erp.example.com" enabled_doc) field =
      Str (b +:+ "/api/method/bk_integration.api." +:+ suffix).
Proof.
  apply (generate_urls_single_slash "https://app.local" enabled_doc
           (write_urls "https://erp.example.com" enabled_doc)).
  - reflexivity.
  - reflexivity.
Defined.

(** X5.  Given a [cint] that sends 0 to 0, the variant's [generate_urls]
    returns what the main controller's returns on every record whose flag is
    falsy or is sent to a non-zero integer by [cint]. *)
Theorem generate_urls_variant_follows_main (cint : value -> Z) origin doc :
  cint (Num 0) = 0%Z ->
  truthy (get doc "enable_integration") = false \/
  cint (get doc "enable_integration") <> 0%Z ->
  Variant.generate_urls cint origin doc = Main.generate_urls origin doc.
Proof.
  intros H0 Hflag.
  rewrite variant_generate_urls_unfold, generate_urls_unfold. unfold Js.or.
  destruct (truthy (get doc "enable_integration")) eqn:Ht.
  - destruct Hflag as [Hf|Hc]; [discriminate |].
    apply Z.eqb_neq in Hc. now rewrite Hc.
  - now rewrite H0.
Qed.

Lemma generate_urls_variant_follows_main_witness :
  Variant.generate_urls Host.cint "https://app.local"
    (<["enable_integration" := Num 2]> enabled_doc) =
  Main.generate_urls "https://app.local"
    (<["enable_integration" := Num 2]> enabled_doc).
Proof.
  apply (generate_urls_variant_follows_main Host.cint).
  - reflexivity.
  - right. discriminate.
Defined.

(** X6.  The two controllers part on a flag that is truthy but that [cint]
    sends to 0, such as the string "0": the variant returns the record as it
    was, while the main controller goes past its guard, where it either
    throws, [erp_base_url] being a truthy value that is not a string, or
    writes the five URLs on the trimmed value of
    [erp_base_url || origin || ""]. *)
Theorem generate_urls_variant_parts_from_main (cint : value -> Z) origin doc :
  truthy (get doc "enable_integration") = true ->
  cint (get doc "enable_integration") = 0%Z ->
  Variant.generate_urls cint origin doc = Normal doc /\
  ((truthy (get doc "erp_base_url") = true /\
    (forall s, get doc "erp_base_url" <> Str s) /\
    Main.generate_urls origin doc = TypeError) \/
   (exists base doc',
      base_source origin doc = Str base /\
      Main.generate_urls origin doc = Normal doc' /\
      forall field suffix, In (field, suffix) derived_fields ->
        get doc' field =
        Str (stripTrailingSlashes base +:+ "/api/method/bk_integration.api."
             +:+ suffix))).
Proof.
  intros Ht Hc. split.
  - rewrite variant_generate_urls_unfold. unfold Js.or. now rewrite Ht, Hc.
  - rewrite generate_urls_unfold, Ht.
    destruct (base_source_cases origin doc) as [[Herp Hb]|[Herp Hb]].
    + destruct (get doc "erp_base_url") as [| |b|n|s] eqn:E;
        try discriminate Herp;
        try (left; rewrite Hb; repeat split; auto; intros ? ?; discriminate).
      right. exists s, (write_urls (replace_trailing_slashes s) doc).
      rewrite Hb. split; [reflexivity |]. split; [reflexivity |].
      intros field suffix Hin.
      rewrite <- replace_trailing_slashes_strip. now apply get_write_urls.
    + right. exists origin, (write_urls (replace_trailing_slashes origin) doc).
      rewrite Hb. split; [reflexivity |]. split; [reflexivity |].
      intros field suffix Hin.
      rewrite <- replace_trailing_slashes_strip. now apply get_write_urls.
Qed.

Lemma generate_urls_variant_parts_from_main_witness :
  let doc : gmap string value :=
    <["enable_integration" := Str "0"]>
      (<["erp_base_url" := Str "https://erp.example.com/"]> ∅) in
  Variant.generate_urls Host.cint "https://app.local" doc = Normal doc /\
  ((truthy (get doc "erp_base_url") = true /\
    (forall s, get doc "erp_base_url" <> Str s) /\
    Main.generate_urls "https://app.local" doc = TypeError) \/
   (exists base doc',
      base_source "https://app.local" doc = Str base /\
      Main.generate_urls "https://app.local" doc = Normal doc' /\
      forall field suffix, In (field, suffix) derived_fields ->
        get doc' field =
        Str (stripTrailingSlashes base +:+ "/api/method/bk_integration.api."
             +:+ suffix))).
Proof.
  intros doc.
  apply (generate_urls_variant_parts_from_main Host.cint "https://app.local" doc).
  - reflexivity.
  - reflexivity.
Defined.

(** X15.  A base made of slashes only is truthy, so the origin is not
    consulted: the base is trimmed to nothing and the five URLs are the
    paths "/api/method/bk_integration.api." followed by the suffix, whatever
    the origin. *)
Theorem generate_urls_slashes_only origin doc n :
  truthy (get doc "enable_integration") = true ->
  get doc "erp_base_url" = Str (slashes (S n)) ->
  exists doc',
    Main.generate_urls origin doc = Normal doc' /\
    forall field suffix, In (field, suffix) derived_fields ->
      get doc' field = Str ("/api/method/bk_integration.api." +:+ suffix).
Proof.
  intros Hen Hbase.
  exists (write_urls "" doc). split.
  - rewrite generate_urls_unfold, Hen.
    rewrite (base_source_erp _ _ _ Hbase) by discriminate.
    cbn [as_string Js.map Js.bind].
    now rewrite (replace_all_slashes _ (all_slashes_slashes (S n))).
  - intros field suffix Hin. now rewrite (get_write_urls _ _ _ _ Hin).
Qed.

Lemma generate_urls_slashes_only_witness :
  exists doc',
    Main.generate_urls "https://app.local"
      (<["enable_integration" := Bool true]>
         (<["erp_base_url" := Str "//"]> ∅)) = Normal doc' /\
    forall field suffix, In (field, suffix) derived_fields ->
      get doc' field = Str ("/api/method/bk_integration.api." +:+ suffix).
Proof.
  apply (generate_urls_slashes_only "https://app.local"
           (<["enable_integration" := Bool true]>
              (<["erp_base_url" := Str "//"]> ∅)) 1).
  - reflexivity.
  - reflexivity.
Defined.

End GenerateUrlsMore.

(** ** More on status rendering *)

Section RenderTestStatusMore.

Variable escape_html : value -> string.

Implicit Types (doc : gmap string value) (s : string).

Lemma render_test_status_falsy doc :
  truthy (get doc "last_test_status") = false ->
  Main.render_test_status escape_html doc = Normal [].
Proof.
  intros H. unfold Main.render_test_status, Js.or. now rewrite H.
Qed.

Lemma render_test_status_not_string doc :
  truthy (get doc "last_test_status") = true ->
  (forall s, get doc "last_test_status" <> Str s) ->
  Main.render_test_status escape_html doc = TypeError.
Proof.
  intros Ht Hs. unfold Main.render_test_status, Js.or. rewrite Ht.
  destruct (get doc "last_test_status"); try reflexivity.
  exfalso. now apply (Hs s).
Qed.

(** The status is falsy, a non-empty string, or a truthy value that is not a
    string. *)
Lemma status_cases doc :
  truthy (get doc "last_test_status") = false \/
  (exists s, get doc "last_test_status" = Str s /\ s <> "") \/
  (truthy (get doc "last_test_status") = true /\
   forall s, get doc "last_test_status" <> Str s).
Proof.
  destruct (get doc "last_test_status") as [| |b|n|s] eqn:E; simpl.
  - now left.
  - now left.
  - destruct b; [| now left].
    right. right. split; [reflexivity | intros ? ?; discriminate].
  - destruct (n =? 0)%Z; [now left |].
    right. right. split; [reflexivity | intros ? ?; discriminate].
  - destruct (String.eqb_spec s ""); [now left |].
    right. left. eauto.
Qed.

Lemma render_test_status_ext doc1 doc2 :
  get doc1 "last_test_status" = get doc2 "last_test_status" ->
  get doc1 "last_test_message" = get doc2 "last_test_message" ->
  get doc1 "last_test_on" = get doc2 "last_test_on" ->
  Main.render_test_status escape_html doc1 =
  Main.render_test_status escape_html doc2.
Proof.
  intros E1 E2 E3. unfold Main.render_test_status. now rewrite E1, E2, E3.
Qed.

(** X7.  [render_test_status] throws exactly when [last_test_status] holds a
    truthy value that is not a string; whatever the message and the
    timestamp hold, they never make it throw. *)
Theorem render_test_status_throws_iff doc :
  Main.render_test_status escape_html doc = TypeError <->
  truthy (get doc "last_test_status") = true /\
  forall s, get doc "last_test_status" <> Str s.
Proof.
  split.
  - intros H. destruct (status_cases doc) as [Hf|[(s & E & Hne)|Hbad]].
    + rewrite (render_test_status_falsy doc Hf) in H. discriminate H.
    + rewrite (render_test_status_string escape_html doc s E Hne) in H.
      discriminate H.
    + exact Hbad.
  - intros [Ht Hs]. now apply render_test_status_not_string.
Qed.



(** X10.  The calls [render_test_status] makes are the same before and after
    [generate_urls], of the main controller or of the variant: URL derivation
    writes none of the fields the rendering reads. *)
Theorem render_test_status_after_generate_urls (cint : value -> Z) origin doc doc' :
  Main.generate_urls origin doc = Normal doc' \/
  Variant.generate_urls cint origin doc = Normal doc' ->
  Main.render_test_status escape_html doc' =
  Main.render_test_status escape_html doc.
Proof.
  intros H.
  assert (Hk : forall k, ~ In k derived_names -> get doc' k = get doc k).
  { intros k Hk. unfold get. f_equal. destruct H as [H|H].
    - rewrite generate_urls_unfold in H.
      destruct (truthy _); [| now inversion H].
      destruct (as_string _); inversion H. now apply lookup_write_urls_other.
    - rewrite variant_generate_urls_unfold in H.
      destruct (_ =? _)%Z; [now inversion H |].
      destruct (as_string _); inversion H. now apply lookup_write_urls_other. }
  apply render_test_status_ext; apply Hk; simpl;
    intros [E|[E|[E|[E|[E|[]]]]]]; discriminate E.
Qed.

(** X11.  In every list of calls [render_test_status] returns, an alert
    comes with a banner of its color: a banner whose color is the alert's
    indicator is among the calls, and no banner of another color is. *)
Theorem render_test_status_alert_matches_banner doc calls m i :
  Main.render_test_status escape_html doc = Normal calls ->
  In (show_alert m i) calls ->
  (exists h, In (set_intro h i) calls) /\
  (forall h c, In (set_intro h c) calls -> c = i).
Proof.
  intros H Ha. destruct (status_cases doc) as [Hf|[(s & E & Hne)|[Ht Hs]]].
  - rewrite (render_test_status_falsy doc Hf) in H. inversion H; subst.
    contradiction.
  - rewrite (render_test_status_string escape_html doc s E Hne) in H.
    inversion H; subst; clear H.
    destruct (String.eqb (toUpperCase s) "SUCCESS");
      [| destruct (String.eqb (toUpperCase s) "FAILED")];
      simpl in Ha;
      repeat match goal with
             | H : _ \/ _ |- _ => destruct H
             | H : False |- _ => contradiction
             | H : show_alert _ _ = _ |- _ => inversion H; clear H
             | H : set_intro _ _ = _ |- _ => inversion H; clear H
             end; subst;
      (split;
       [ eexists; simpl; right; left; reflexivity
       | intros h c Hb; simpl in Hb;
         repeat match goal with
                | H : _ \/ _ |- _ => destruct H
                | H : False |- _ => contradiction
                | H : show_alert _ _ = _ |- _ => inversion H; clear H
                | H : set_intro _ _ = _ |- _ => inversion H; clear H
                end; reflexivity ]).
  - rewrite (render_test_status_not_string doc Ht Hs) in H. discriminate H.
Qed.

End RenderTestStatusMore.



Lemma render_test_status_after_generate_urls_witness :
  Main.render_test_status Host.escape_html
    (write_urls "https://erp.example.com" enabled_doc) =
  Main.render_test_status Host.escape_html enabled_doc.
Proof.
  apply (render_test_status_after_generate_urls Host.escape_html Host.cint
           "https://app.local" enabled_doc).
  left. reflexivity.
Defined.

Lemma render_test_status_alert_matches_banner_witness :
  (exists h,
     In (set_intro h "red")
        [show_alert "BK Connection: FAILED" "red";
         set_intro (banner Main.label_failed "" "") "red"]) /\
  (forall h c,
     In (set_intro h c)
        [show_alert "BK Connection: FAILED" "red";
         set_intro (banner Main.label_failed "" "") "red"] ->
     c = "red").
Proof.
  apply (render_test_status_alert_matches_banner Host.escape_html enabled_doc
           [show_alert "BK Connection: FAILED" "red";
            set_intro (banner Main.label_failed "" "") "red"]
           "BK Connection: FAILED" "red").
  - reflexivity.
  - simpl. auto.
Defined.

(** ** The event handlers *)

Section Handlers.

Variable origin : string.
Variable escape_html : value -> string.
Variable cint : value -> Z.

Implicit Types (frm : form) (doc : gmap string value).

Lemma main_trigger_generate_urls :
  dispatches (main_trigger origin escape_html) "generate_urls"
    (MainForm.generate_urls origin).
Proof. intros frm frm' H. exact H. Qed.

Lemma main_trigger_render_test_status :
  dispatches (main_trigger origin escape_html) "render_test_status"
    (MainForm.render_test_status escape_html).
Proof. intros frm frm' H. exact H. Qed.

Lemma variant_trigger_generate_urls :
  dispatches (variant_trigger cint origin) "generate_urls"
    (VariantForm.generate_urls cint origin).
Proof. intros frm frm' H. exact H. Qed.

Lemma get_after_generate_urls doc doc' k :
  Main.generate_urls origin doc = Normal doc' ->
  ~ In k derived_names ->
  get doc' k = get doc k.
Proof.
  intros H Hk. unfold get. f_equal.
  rewrite generate_urls_unfold in H.
  destruct (truthy _); [| now inversion H].
  destruct (as_string _); inversion H. now apply lookup_write_urls_other.
Qed.

Lemma render_after_generate_urls doc doc' :
  Main.generate_urls origin doc = Normal doc' ->
  Main.render_test_status escape_html doc' =
  Main.render_test_status escape_html doc.
Proof.
  intros H.
  apply render_test_status_ext; apply (get_after_generate_urls _ _ _ H);
    simpl; intros [E|[E|[E|[E|[E|[]]]]]]; discriminate E.
Qed.

Lemma flag_after_generate_urls doc doc' :
  Main.generate_urls origin doc = Normal doc' ->
  get doc' "enable_integration" = get doc "enable_integration".
Proof.
  intros H. apply (get_after_generate_urls _ _ _ H).
  simpl; intros [E|[E|[E|[E|[E|[]]]]]]; discriminate E.
Qed.

Section MainHandlers.

Variable trigger : string -> form -> completion form.
Hypothesis trigger_generate_urls :
  dispatches trigger "generate_urls" (MainForm.generate_urls origin).
Hypothesis trigger_render_test_status :
  dispatches trigger "render_test_status"
    (MainForm.render_test_status escape_html).

Lemma enable_integration_runs frm doc' calls :
  Main.generate_urls origin (form_doc frm) = Normal doc' ->
  Main.render_test_status escape_html (form_doc frm) = Normal calls ->
  MainForm.enable_integration trigger frm =
  Normal (Form doc' (form_calls frm ++ calls)%list (form_buttons frm)).
Proof.
  intros Hg Hr. unfold MainForm.enable_integration.
  rewrite (trigger_generate_urls frm (Form doc' (form_calls frm) (form_buttons frm)))
    by (unfold MainForm.generate_urls; now rewrite Hg).
  simpl. apply trigger_render_test_status.
  unfold MainForm.render_test_status. simpl.
  now rewrite (render_after_generate_urls _ _ Hg), Hr.
Qed.

Lemma refresh_runs frm doc' calls :
  Main.generate_urls origin (form_doc frm) = Normal doc' ->
  Main.render_test_status escape_html (form_doc frm) = Normal calls ->
  MainForm.refresh trigger frm =
  Normal
    (Form doc' (form_calls frm ++ calls)%list
       (if truthy (get (form_doc frm) "enable_integration")
        then (form_buttons frm ++ [("Test Connection", "test_connection")])%list
        else form_buttons frm)).
Proof.
  intros Hg Hr. unfold MainForm.refresh.
  rewrite (trigger_generate_urls frm (Form doc' (form_calls frm) (form_buttons frm)))
    by (unfold MainForm.generate_urls; now rewrite Hg).
  simpl.
  rewrite (trigger_render_test_status
             (Form doc' (form_calls frm) (form_buttons frm))
             (Form doc' (form_calls frm ++ calls)%list (form_buttons frm))).
  - simpl. rewrite (flag_after_generate_urls _ _ Hg).
    destruct (truthy _); reflexivity.
  - unfold MainForm.render_test_status. simpl.
    now rewrite (render_after_generate_urls _ _ Hg), Hr.
Qed.

Lemma erp_base_url_runs frm doc' :
  Main.generate_urls origin (form_doc frm) = Normal doc' ->
  MainForm.erp_base_url trigger frm =
  Normal (Form doc' (form_calls frm) (form_buttons frm)).
Proof.
  intros Hg. unfold MainForm.erp_base_url. apply trigger_generate_urls.
  unfold MainForm.generate_urls. now rewrite Hg.
Qed.

End MainHandlers.

End Handlers.

Section HandlerProperties.

Implicit Types (frm : form) (doc : gmap string value).

(** X12.  With a [frm.trigger] that dispatches to the two handlers, and both
    returning on the incoming record: [enable_integration] and [refresh]
    leave the record [generate_urls] returns and add to the screen the calls
    [render_test_status] makes for the incoming record (URL derivation does
    not change them); [refresh] adds the "Test Connection" button exactly
    when the incoming flag is truthy; [erp_base_url] changes the record
    only. *)
Theorem main_handlers_outcome origin escape_html trigger frm doc' calls :
  dispatches trigger "generate_urls" (MainForm.generate_urls origin) ->
  dispatches trigger "render_test_status"
    (MainForm.render_test_status escape_html) ->
  Main.generate_urls origin (form_doc frm) = Normal doc' ->
  Main.render_test_status escape_html (form_doc frm) = Normal calls ->
  MainForm.refresh trigger frm =
    Normal
      (Form doc' (form_calls frm ++ calls)%list
         (if truthy (get (form_doc frm) "enable_integration")
          then (form_buttons frm ++ [("Test Connection", "test_connection")])%list
          else form_buttons frm)) /\
  MainForm.enable_integration trigger frm =
    Normal (Form doc' (form_calls frm ++ calls)%list (form_buttons frm)) /\
  MainForm.erp_base_url trigger frm =
    Normal (Form doc' (form_calls frm) (form_buttons frm)).
Proof.
  intros Dg Dr Hg Hr. split; [| split].
  - now apply (refresh_runs origin escape_html trigger Dg Dr).
  - now apply (enable_integration_runs origin escape_html trigger Dg Dr).
  - now apply (erp_base_url_runs origin trigger Dg).
Qed.

Lemma main_handlers_outcome_witness :
  let trigger := main_trigger "https://app.local" Host.escape_html in
  let frm := Form enabled_doc [] [] in
  let doc' := write_urls "https://erp.example.com" enabled_doc in
  let calls :=
    [show_alert "BK Connection: FAILED" "red";
     set_intro (banner Main.label_failed "" "") "red"] in
  MainForm.refresh trigger frm =
    Normal (Form doc' calls [("Test Connection", "test_connection")]) /\
  MainForm.enable_integration trigger frm = Normal (Form doc' calls []) /\
  MainForm.erp_base_url trigger frm = Normal (Form doc' [] []).
Proof.
  intros trigger frm doc' calls.
  apply (main_handlers_outcome "https://app.local" Host.escape_html trigger frm
           doc' calls).
  - apply main_trigger_generate_urls.
  - apply main_trigger_render_test_status.
  - reflexivity.
  - reflexivity.
Defined.

(** X13.  Each of the three handlers of the main controller re-establishes
    the derived URLs: with the integration on, a non-empty string base and a
    status that is falsy or a string, the handler returns and every derived
    field then holds the trimmed base followed by
    "/api/method/bk_integration.api." and its suffix. *)
Theorem main_handlers_derive_urls origin escape_html trigger frm base :
  dispatches trigger "generate_urls" (MainForm.generate_urls origin) ->
  dispatches trigger "render_test_status"
    (MainForm.render_test_status escape_html) ->
  truthy (get (form_doc frm) "enable_integration") = true ->
  get (form_doc frm) "erp_base_url" = Str base ->
  base <> "" ->
  truthy (get (form_doc frm) "last_test_status") = false \/
  (exists s, get (form_doc frm) "last_test_status" = Str s) ->
  forall handler,
    In handler [MainForm.refresh trigger; MainForm.erp_base_url trigger;
                MainForm.enable_integration trigger] ->
    exists frm',
      handler frm = Normal frm' /\
      forall field suffix, In (field, suffix) derived_fields ->
        get (form_doc frm') field =
        Str (stripTrailingSlashes base +:+ "/api/method/bk_integration.api."
             +:+ suffix).
Proof.
  intros Dg Dr Hen Hbase Hne Hst handler Hin.
  set (doc' := write_urls (replace_trailing_slashes base) (form_doc frm)).
  assert (Hg : Main.generate_urls origin (form_doc frm) = Normal doc').
  { rewrite generate_urls_unfold, Hen, (base_source_erp _ _ _ Hbase Hne).
    reflexivity. }
  assert (Hr : exists calls,
             Main.render_test_status escape_html (form_doc frm) = Normal calls).
  { destruct Hst as [Hf|[s E]].
    - eexists. now apply render_test_status_falsy.
    - destruct (string_dec s "") as [->|Hs].
      + eexists. apply render_test_status_falsy. now rewrite E.
      + eexists. now apply (render_test_status_string escape_html _ s). }
  destruct Hr as [calls Hr].
  assert (Hfields : forall field suffix, In (field, suffix) derived_fields ->
            get doc' field =
            Str (stripTrailingSlashes base +:+ "/api/method/bk_integration.api."
                 +:+ suffix)).
  { intros field suffix Hf. unfold doc'.
    rewrite <- replace_trailing_slashes_strip. now apply get_write_urls. }
  simpl in Hin. destruct Hin as [<-|[<-|[<-|[]]]].
  - eexists. split;
      [apply (refresh_runs origin escape_html trigger Dg Dr _ _ _ Hg Hr) |].
    exact Hfields.
  - eexists. split; [apply (erp_base_url_runs origin trigger Dg _ _ Hg) |].
    exact Hfields.
  - eexists. split;
      [apply (enable_integration_runs origin escape_html trigger Dg Dr _ _ _ Hg Hr) |].
    exact Hfields.
Qed.

Lemma main_handlers_derive_urls_witness :
  exists frm',
    MainForm.refresh (main_trigger "https://app.local" Host.escape_html)
      (Form enabled_doc [] []) = Normal frm' /\
    forall field suffix, In (field, suffix) derived_fields ->
      get (form_doc frm') field =
      Str (stripTrailingSlashes "https://erp.example.com//"
           +:+ "/api/method/bk_integration.api." +:+ suffix).
Proof.
  apply (main_handlers_derive_urls "https://app.local" Host.escape_html
           (main_trigger "https://app.local" Host.escape_html)
           (Form enabled_doc [] []) "https://erp.example.com//").
  - apply main_trigger_generate_urls.
  - apply main_trigger_render_test_status.
  - reflexivity.
  - reflexivity.
  - discriminate.
  - right. exists "failed". reflexivity.
  - simpl. auto.
Defined.

(** X14.  With a [frm.trigger] that dispatches in each controller, a [cint]
    that sends 0 to 0, a flag that is falsy or that [cint] sends to a
    non-zero integer, and the main controller's [generate_urls] and
    [render_test_status] both returning on the incoming record: each handler
    of the variant returns with the record the main [generate_urls] returns,
    making no call on the screen and adding no button, and that record is
    the one each handler of the main controller leaves. *)
Theorem variant_handlers_follow_main cint origin escape_html tv tm frm doc' calls :
  dispatches tv "generate_urls" (VariantForm.generate_urls cint origin) ->
  dispatches tm "generate_urls" (MainForm.generate_urls origin) ->
  dispatches tm "render_test_status" (MainForm.render_test_status escape_html) ->
  cint (Num 0) = 0%Z ->
  truthy (get (form_doc frm) "enable_integration") = false \/
  cint (get (form_doc frm) "enable_integration") <> 0%Z ->
  Main.generate_urls origin (form_doc frm) = Normal doc' ->
  Main.render_test_status escape_html (form_doc frm) = Normal calls ->
  (forall handler,
     In handler [VariantForm.refresh tv; VariantForm.erp_base_url tv;
                 VariantForm.enable_integration tv] ->
     handler frm = Normal (Form doc' (form_calls frm) (form_buttons frm))) /\
  Js.map form_doc (MainForm.refresh tm frm) = Normal doc' /\
  Js.map form_doc (MainForm.erp_base_url tm frm) = Normal doc' /\
  Js.map form_doc (MainForm.enable_integration tm frm) = Normal doc'.
Proof.
  intros Dv Dg Dr H0 Hflag Hg Hr.
  assert (Hv : Variant.generate_urls cint origin (form_doc frm) = Normal doc').
  { rewrite <- Hg.
    rewrite variant_generate_urls_unfold, generate_urls_unfold. unfold Js.or.
    destruct (truthy (get (form_doc frm) "enable_integration")) eqn:Ht.
    - destruct Hflag as [Hf|Hc]; [discriminate |].
      apply Z.eqb_neq in Hc. now rewrite Hc.
    - now rewrite H0. }
  assert (Hrun : tv "generate_urls" frm =
                 Normal (Form doc' (form_calls frm) (form_buttons frm))).
  { apply Dv. unfold VariantForm.generate_urls. now rewrite Hv. }
  split; [| split; [| split]].
  - intros handler Hin. simpl in Hin.
    destruct Hin as [<-|[<-|[<-|[]]]]; exact Hrun.
  - now rewrite (refresh_runs origin escape_html tm Dg Dr _ _ _ Hg Hr).
  - now rewrite (erp_base_url_runs origin tm Dg _ _ Hg).
  - now rewrite (enable_integration_runs origin escape_html tm Dg Dr _ _ _ Hg Hr).
Qed.

Lemma variant_handlers_follow_main_witness :
  let tv := variant_trigger Host.cint "https://app.local" in
  let tm := main_trigger "https://app.local" Host.escape_html in
  let frm := Form enabled_doc [] [] in
  let doc' := write_urls "https://erp.example.com" enabled_doc in
  (forall handler,
     In handler [VariantForm.refresh tv; VariantForm.erp_base_url tv;
                 VariantForm.enable_integration tv] ->
     handler frm = Normal (Form doc' [] [])) /\
  Js.map form_doc (MainForm.refresh tm frm) = Normal doc' /\
  Js.map form_doc (MainForm.erp_base_url tm frm) = Normal doc' /\
  Js.map form_doc (MainForm.enable_integration tm frm) = Normal doc'.
Proof.
  intros tv tm frm doc'.
  apply (variant_handlers_follow_main Host.cint "https://app.local"
           Host.escape_html tv tm frm doc'
           [show_alert "BK Connection: FAILED" "red";
            set_intro (banner Main.label_failed "" "") "red"]).
  - apply variant_trigger_generate_urls.
  - apply main_trigger_generate_urls.
  - apply main_trigger_render_test_status.
  - reflexivity.
  - right. discriminate.
  - reflexivity.
  - reflexivity.
Defined.

End HandlerProperties.
